(** * Environments API: the update use-case and the controller

  A shallow embedding of
  - [apps/api/src/app/environments/usecases/update-environment/update-environment.usecase.ts]
  - [apps/api/src/app/environments/environments.controller.ts]

  JavaScript objects are finite maps from property names to values,
  optional string properties are [option string] ([None] is [undefined]),
  and [async] methods are computations over an explicit world that either
  return a value or throw. *)

From stdpp Require Import base strings gmap fin_maps list.

(** ** JavaScript values and objects *)

Module Js.

(** The values a property of the documents handled here can hold.  Nested
    properties of a stored document are addressed by their dotted path. *)
Inductive Value : Type :=
| Undefined
| Str (s : string)
| Bool (b : bool)
| Num (n : Z).

#[global] Instance Value_eq_dec : EqDecision Value.
Proof. solve_decision. Defined.

(** A plain object: property name to value. *)
Abbreviation Object := (gmap string Value).

(** Reading an optional string property: [undefined] when it is absent. *)
Definition of_optional (v : option string) : Value :=
  match v with
    | Some s => Str s
    | None => Undefined
  end.

(** [ToBoolean]: what [if (v)] and [v && ...] test. *)
Definition truthy (v : Value) : bool :=
  match v with
    | Undefined => false
    | Str s => negb (String.eqb s EmptyString)
    | Bool b => b
    | Num n => negb (n =? 0)%Z
  end.

(** [v !== ''], strict inequality with the empty string literal. *)
Definition strict_ne_empty (v : Value) : bool :=
  match v with
    | Str EmptyString => false
    | _ => true
  end.

(** [o.k = v] on a plain object. *)
Definition assign (k : string) (v : Value) (o : Object) : Object :=
  <[k := v]> o.

End Js.

(** ** Asynchronous computations

  An [async] method run to completion over a world [W]: it returns a value
  or throws, and leaves a world behind.  [await] is sequencing: a rejected
  promise throws at the [await]. *)

Module Async.

Record Exception : Type := { exn_name : string; exn_message : string }.

Inductive Outcome (A : Type) : Type :=
| Returned (a : A)
| Thrown (e : Exception).
Arguments Returned {A} a.
Arguments Thrown {A} e.

Definition M (W A : Type) : Type := W → Outcome A * W.

Definition ret {W A} (a : A) : M W A := λ w, (Returned a, w).

Definition throw {W A} (e : Exception) : M W A := λ w, (Thrown e, w).

Definition bind {W A B} (m : M W A) (k : A → M W B) : M W B :=
  λ w, match m w with
         | (Returned a, w') => k a w'
         | (Thrown e, w') => (Thrown e, w')
       end.

Definition outcome {W A} (r : Outcome A * W) : Outcome A := r.1.
Definition world {W A} (r : Outcome A * W) : W := r.2.

End Async.

Notation "'await' x ← m ; k" := (Async.bind m (λ x, k))
(at level 100, x name, m at level 99, k at level 200, right associativity,
   format "'await'  x  ←  m ;  '/' k").

Import Async.

(** ** Session and request bodies *)

(** [IJwtPayload], the authenticated session: the properties the handlers read. *)
Module IJwtPayload.
Record t : Type := { _id : string; organizationId : string; environmentId : string }.
End IJwtPayload.

Module UpdateEnvironmentRequestDto.
Record t : Type :=
  { name : option string; identifier : option string; parentId : option string }.
End UpdateEnvironmentRequestDto.

Module UpdateWidgetSettingsRequestDto.
Record t : Type := { notificationCenterEncryption : bool }.
End UpdateWidgetSettingsRequestDto.

(** ** Commands *)

(** Modelled from the spec: the static [create] of the command classes, which
    are not among the sources.  The spec calls a command an "immutable
    validated parameter bundle": [create] hands back the properties it was
    given, or throws when validation refuses them.  What validation accepts
    is left open: it is an instance of this class. *)
Class Command (T : Type) : Type := { validate : T → option Exception }.

Definition create {T} `{Command T} {W} (data : T) : M W T :=
  match validate data with
  | None => ret data
  | Some e => throw e
  end.

Module UpdateEnvironmentCommand.
Record t : Type :=
  { _id : string;
    organizationId : string;
    userId : string;
    name : option string;
    identifier : option string;
    _parentId : option string }.
End UpdateEnvironmentCommand.

Module GetApiKeysCommand.
Record t : Type := { userId : string; organizationId : string; environmentId : string }.
End GetApiKeysCommand.

Module UpdateWidgetSettingsCommand.
Record t : Type :=
  { organizationId : string;
    environmentId : string;
    notificationCenterEncryption : bool }.
End UpdateWidgetSettingsCommand.

(** ** The environment store *)

Module EnvironmentRepository.

(** The arguments of one [update] call: the filter and the update document. *)
Record UpdateCall : Type :=
  { query : Js.Object; updateBody : gmap string Js.Object }.

(** The repository as the use-case sees it: [update(query, updateBody)] acts
    on the store and acknowledges, or throws. *)
Record t (Store Ack : Type) : Type :=
  { update : Js.Object → gmap string Js.Object → Store → Outcome Ack * Store }.
Arguments update {Store Ack} _ _ _ _.

(** The world of a use-case: the store, and the calls made to the repository
    so far, oldest first. *)
Record World (Store : Type) : Type :=
  { store : Store; calls : list UpdateCall }.
Arguments Build_World {Store} _ _.
Arguments store {Store} _.
Arguments calls {Store} _.

(** [this.environmentRepository.update(query, updateBody)]. *)
Definition call_update {Store Ack} (repo : t Store Ack)
    (q : Js.Object) (b : gmap string Js.Object) : M (World Store) Ack :=
  λ w, let r := update repo q b (store w) in
       (r.1, {| store := r.2;
                calls := calls w ++ [ {| query := q; updateBody := b |} ] |}).

(** The calls made between two worlds of one run. *)
Definition calls_since {Store} (before after : World Store) : list UpdateCall :=
  drop (length (calls before)) (calls after).

End EnvironmentRepository.

(** ** The update use-case *)

Module UpdateEnvironment.
Import UpdateEnvironmentCommand.

(** Lines 11 to 22 of [execute]: the payload, built by three guarded
    assignments. *)
Definition updatePayload (command : UpdateEnvironmentCommand.t) : Js.Object :=
  let updatePayload : Js.Object := ∅ in
  let updatePayload :=
    if Js.truthy (Js.of_optional (name command))
       && Js.strict_ne_empty (Js.of_optional (name command))
    then Js.assign "name" (Js.of_optional (name command)) updatePayload
    else updatePayload in
  let updatePayload :=
    if Js.truthy (Js.of_optional (_parentId command))
       && Js.strict_ne_empty (Js.of_optional (name command))
    then Js.assign "_parentId" (Js.of_optional (_parentId command)) updatePayload
    else updatePayload in
  let updatePayload :=
    if Js.truthy (Js.of_optional (identifier command))
       && Js.strict_ne_empty (Js.of_optional (name command))
    then Js.assign "identifier" (Js.of_optional (identifier command)) updatePayload
    else updatePayload in
  updatePayload.

(** The filter of line 25: [{ _id: command._id }]. *)
Definition updateFilter (command : UpdateEnvironmentCommand.t) : Js.Object :=
  {[ "_id" := Js.Str (_id command) ]}.

(** The update document of line 28: [{ $set: updatePayload }]. *)
Definition updateDocument (command : UpdateEnvironmentCommand.t) : gmap string Js.Object :=
  {[ "$set" := updatePayload command ]}.

Definition execute {Store Ack} (environmentRepository : EnvironmentRepository.t Store Ack)
    (command : UpdateEnvironmentCommand.t) : M (EnvironmentRepository.World Store) Ack :=
  await r ← EnvironmentRepository.call_update environmentRepository
              (updateFilter command) (updateDocument command);
  ret r.

(** The three optional properties of the command that [execute] looks at,
    each with the property of the stored document it is written to. *)
Inductive Field : Type := FName | FIdentifier | FParentId.

Definition key (f : Field) : string :=
  match f with
  | FName => "name"
  | FIdentifier => "identifier"
  | FParentId => "_parentId"
  end.

Definition value (f : Field) (command : UpdateEnvironmentCommand.t) : option string :=
  match f with
  | FName => name command
  | FIdentifier => identifier command
  | FParentId => _parentId command
  end.

(** The test in front of the assignment of field [f]: lines 13, 16 and 20. *)
Definition guard (f : Field) (command : UpdateEnvironmentCommand.t) : bool :=
  Js.truthy (Js.of_optional (value f command))
  && Js.strict_ne_empty (Js.of_optional (name command)).

(** The command with another organization id, everything else the same. *)
Definition with_organizationId (org : string) (command : UpdateEnvironmentCommand.t)
    : UpdateEnvironmentCommand.t :=
  {| _id := _id command;
     organizationId := org;
     userId := userId command;
     name := name command;
     identifier := identifier command;
     _parentId := _parentId command |}.

End UpdateEnvironment.

(** ** The controller *)

Module EnvironmentsController.

(** The use-cases the constructor injects, each by its [execute] method. *)
Record t (W Ack ApiKeys Env : Type) : Type :=
  { updateEnvironmentUsecase : UpdateEnvironmentCommand.t → M W Ack;
    getApiKeysUsecase : GetApiKeysCommand.t → M W ApiKeys;
    regenerateApiKeysUsecase : GetApiKeysCommand.t → M W ApiKeys;
    updateWidgetSettingsUsecase : UpdateWidgetSettingsCommand.t → M W Env }.
Arguments updateEnvironmentUsecase {W Ack ApiKeys Env} _ _.
Arguments getApiKeysUsecase {W Ack ApiKeys Env} _ _.
Arguments regenerateApiKeysUsecase {W Ack ApiKeys Env} _ _.
Arguments updateWidgetSettingsUsecase {W Ack ApiKeys Env} _ _.

Section handlers.
Context {W Ack ApiKeys Env : Type}.
Context {update_validation : Command UpdateEnvironmentCommand.t}.
Context {api_keys_validation : Command GetApiKeysCommand.t}.
Context {widget_validation : Command UpdateWidgetSettingsCommand.t}.
Variable this : t W Ack ApiKeys Env.

(** The object literal of lines 120 to 127. *)
Definition updateMyEnvironment_data (user : IJwtPayload.t) (envId : string)
    (payload : UpdateEnvironmentRequestDto.t) : UpdateEnvironmentCommand.t :=
  {| UpdateEnvironmentCommand._id := envId;
     UpdateEnvironmentCommand.organizationId := IJwtPayload.organizationId user;
     UpdateEnvironmentCommand.userId := IJwtPayload._id user;
     UpdateEnvironmentCommand.name := UpdateEnvironmentRequestDto.name payload;
     UpdateEnvironmentCommand.identifier := UpdateEnvironmentRequestDto.identifier payload;
     UpdateEnvironmentCommand._parentId := UpdateEnvironmentRequestDto.parentId payload |}.

(** [PUT /:envId] *)
Definition updateMyEnvironment (user : IJwtPayload.t) (envId : string)
    (payload : UpdateEnvironmentRequestDto.t) : M W Ack :=
  await command ← create (updateMyEnvironment_data user envId payload);
  await r ← updateEnvironmentUsecase this command;
  ret r.

(** The object literal of lines 158 to 162. *)
Definition getOrganizationApiKeys_data (user : IJwtPayload.t) : GetApiKeysCommand.t :=
  {| GetApiKeysCommand.userId := IJwtPayload._id user;
     GetApiKeysCommand.organizationId := IJwtPayload.organizationId user;
     GetApiKeysCommand.environmentId := IJwtPayload.environmentId user |}.

(** [GET /api-keys] *)
Definition getOrganizationApiKeys (user : IJwtPayload.t) : M W ApiKeys :=
  await command ← create (getOrganizationApiKeys_data user);
  await r ← getApiKeysUsecase this command;
  ret r.

(** The object literal of lines 176 to 180. *)
Definition regenerateOrganizationApiKeys_data (user : IJwtPayload.t) : GetApiKeysCommand.t :=
  {| GetApiKeysCommand.userId := IJwtPayload._id user;
     GetApiKeysCommand.organizationId := IJwtPayload.organizationId user;
     GetApiKeysCommand.environmentId := IJwtPayload.environmentId user |}.

(** [POST /api-keys/regenerate] *)
Definition regenerateOrganizationApiKeys (user : IJwtPayload.t) : M W ApiKeys :=
  await command ← create (regenerateOrganizationApiKeys_data user);
  await r ← regenerateApiKeysUsecase this command;
  ret r.

(** The object literal of lines 197 to 201. *)
Definition updateWidgetSettings_data (user : IJwtPayload.t)
    (body : UpdateWidgetSettingsRequestDto.t) : UpdateWidgetSettingsCommand.t :=
  {| UpdateWidgetSettingsCommand.organizationId := IJwtPayload.organizationId user;
     UpdateWidgetSettingsCommand.environmentId := IJwtPayload.environmentId user;
     UpdateWidgetSettingsCommand.notificationCenterEncryption :=
       UpdateWidgetSettingsRequestDto.notificationCenterEncryption body |}.

(** [PUT /widget/settings] *)
Definition updateWidgetSettings (user : IJwtPayload.t)
    (body : UpdateWidgetSettingsRequestDto.t) : M W Env :=
  await command ← create (updateWidgetSettings_data user body);
  await r ← updateWidgetSettingsUsecase this command;
  ret r.

End handlers.

End EnvironmentsController.

(** ** A store to run against *)

Module InMemoryStore.

Abbreviation Collection := (list Js.Object).

(** Modelled from the spec: the persistence store's "partial
    update-by-filter" ([EnvironmentRepository.update] of the data-access
    library, which is not among the sources).  The use-case "persists via a
    partial-field merge against the record matched by id": a document matches
    when it carries every property of the filter, and the properties under
    [$set] overwrite those of a matching document, the others staying. *)
Definition matches (query doc : Js.Object) : bool :=
  bool_decide (query ⊆ doc).

Definition merge (updateBody : gmap string Js.Object) (doc : Js.Object) : Js.Object :=
  default ∅ (updateBody !! "$set") ∪ doc.

Definition update_documents (query : Js.Object) (updateBody : gmap string Js.Object)
    (c : Collection) : Collection :=
  (λ doc, if matches query doc then merge updateBody doc else doc) <$> c.

(** The acknowledgment is a stand-in: the specification gives the result of
    an update no shape beyond "operation acknowledgment".  This one counts
    the documents that matched. *)
Definition repository : EnvironmentRepository.t Collection nat :=
  {| EnvironmentRepository.update query updateBody c :=
       (Returned (length (filter (λ doc, matches query doc = true) c)),
        update_documents query updateBody c) |}.

(** A store that cannot be reached: every call throws and writes nothing. *)
Definition connection_lost : Exception :=
  {| exn_name := "MongoNetworkError"; exn_message := "connection lost" |}.

Definition unreachable : EnvironmentRepository.t Collection nat :=
  {| EnvironmentRepository.update _ _ c := (Thrown connection_lost, c) |}.


End InMemoryStore.

(** ** Concrete data: the scenario of the specification *)

Module Scenario.

(** [PUT /:envId {name: "", identifier: "prod-v2"}] by user [U1] of [O1]. *)
Definition empty_name : UpdateEnvironmentCommand.t :=
  {| UpdateEnvironmentCommand._id := "env1";
     UpdateEnvironmentCommand.organizationId := "O1";
     UpdateEnvironmentCommand.userId := "U1";
     UpdateEnvironmentCommand.name := Some EmptyString;
     UpdateEnvironmentCommand.identifier := Some "prod-v2";
     UpdateEnvironmentCommand._parentId := None |}.

(** [PUT /:envId {identifier: "prod-v2", parentId: "env0"}]: no name at all. *)
Definition no_name : UpdateEnvironmentCommand.t :=
  {| UpdateEnvironmentCommand._id := "env1";
     UpdateEnvironmentCommand.organizationId := "O1";
     UpdateEnvironmentCommand.userId := "U1";
     UpdateEnvironmentCommand.name := None;
     UpdateEnvironmentCommand.identifier := Some "prod-v2";
     UpdateEnvironmentCommand._parentId := Some "env0" |}.

(** [PUT /:envId {name: "Live"}] sent with the organization [O2]. *)
Definition rename : UpdateEnvironmentCommand.t :=
  {| UpdateEnvironmentCommand._id := "env1";
     UpdateEnvironmentCommand.organizationId := "O2";
     UpdateEnvironmentCommand.userId := "U2";
     UpdateEnvironmentCommand.name := Some "Live";
     UpdateEnvironmentCommand.identifier := None;
     UpdateEnvironmentCommand._parentId := None |}.

Definition production : Js.Object :=
  {[ "_id" := Js.Str "env1";
     "name" := Js.Str "Production";
     "identifier" := Js.Str "prod";
     "_organizationId" := Js.Str "O1";
     "widget.notificationCenterEncryption" := Js.Bool false ]}.

Definition development : Js.Object :=
  {[ "_id" := Js.Str "env2";
     "name" := Js.Str "Development";
     "identifier" := Js.Str "dev";
     "_organizationId" := Js.Str "O1";
     "_parentId" := Js.Str "env1" ]}.

Definition initial : EnvironmentRepository.World InMemoryStore.Collection :=
  {| EnvironmentRepository.store := [production; development];
     EnvironmentRepository.calls := [] |}.

Definition session : IJwtPayload.t :=
  {| IJwtPayload._id := "U1";
     IJwtPayload.organizationId := "O1";
     IJwtPayload.environmentId := "env1" |}.

(** A validation that accepts every bundle. *)
Definition accept_all {T : Type} : Command T := {| validate _ := None |}.

Definition not_wired : Exception :=
  {| exn_name := "Error"; exn_message := "use-case not wired" |}.

(** The controller over the in-memory store.  Only the update use-case is
    among the sources; the others are left unwired. *)
Definition controller
    : EnvironmentsController.t (EnvironmentRepository.World InMemoryStore.Collection)
        nat unit unit :=
  {| EnvironmentsController.updateEnvironmentUsecase :=
       UpdateEnvironment.execute InMemoryStore.repository;
     EnvironmentsController.getApiKeysUsecase := λ _, throw not_wired;
     EnvironmentsController.regenerateApiKeysUsecase := λ _, throw not_wired;
     EnvironmentsController.updateWidgetSettingsUsecase := λ _, throw not_wired |}.

(** The body [{name: "", identifier: "prod-v2"}]. *)
Definition put_body : UpdateEnvironmentRequestDto.t :=
  {| UpdateEnvironmentRequestDto.name := Some EmptyString;
     UpdateEnvironmentRequestDto.identifier := Some "prod-v2";
     UpdateEnvironmentRequestDto.parentId := None |}.

End Scenario.

(** ** The other handlers of the controller: lines 53 to 146 *)

(** [CreateEnvironmentRequestDto]: the property the handler reads. *)
Module CreateEnvironmentRequestDto.
Record t : Type := { name : string }.
End CreateEnvironmentRequestDto.

Module GetEnvironmentCommand.
Record t : Type := { environmentId : string; userId : string; organizationId : string }.
End GetEnvironmentCommand.

Module CreateEnvironmentCommand.
Record t : Type := { name : string; userId : string; organizationId : string }.
End CreateEnvironmentCommand.

Module GetMyEnvironmentsCommand.
Record t : Type := { userId : string; organizationId : string }.
End GetMyEnvironmentsCommand.

Module DeleteEnvironmentCommand.
Record t : Type := { _id : string; organizationId : string; userId : string }.
End DeleteEnvironmentCommand.

Module EnvironmentsControllerCrud.

(** The other four use-cases the constructor injects. *)
Record t (W Env Deleted : Type) : Type :=
  { createEnvironmentUsecase : CreateEnvironmentCommand.t → M W Env;
    deleteEnvironmentUsecase : DeleteEnvironmentCommand.t → M W Deleted;
    getEnvironmentUsecase : GetEnvironmentCommand.t → M W Env;
    getMyEnvironmentsUsecase : GetMyEnvironmentsCommand.t → M W (list Env) }.
Arguments createEnvironmentUsecase {W Env Deleted} _ _.
Arguments deleteEnvironmentUsecase {W Env Deleted} _ _.
Arguments getEnvironmentUsecase {W Env Deleted} _ _.
Arguments getMyEnvironmentsUsecase {W Env Deleted} _ _.

Section handlers.
Context {W Env Deleted : Type}.
Context {get_validation : Command GetEnvironmentCommand.t}.
Context {create_validation : Command CreateEnvironmentCommand.t}.
Context {list_validation : Command GetMyEnvironmentsCommand.t}.
Context {delete_validation : Command DeleteEnvironmentCommand.t}.
Variable this : t W Env Deleted.

(** The object literal of lines 63 to 67. *)
Definition getCurrentEnvironment_data (user : IJwtPayload.t) : GetEnvironmentCommand.t :=
  {| GetEnvironmentCommand.environmentId := IJwtPayload.environmentId user;
     GetEnvironmentCommand.userId := IJwtPayload._id user;
     GetEnvironmentCommand.organizationId := IJwtPayload.organizationId user |}.

(** [GET /me] *)
Definition getCurrentEnvironment (user : IJwtPayload.t) : M W Env :=
  await command ← create (getCurrentEnvironment_data user);
  await r ← getEnvironmentUsecase this command;
  ret r.

(** The object literal of lines 84 to 88. *)
Definition createEnvironment_data (user : IJwtPayload.t)
    (body : CreateEnvironmentRequestDto.t) : CreateEnvironmentCommand.t :=
  {| CreateEnvironmentCommand.name := CreateEnvironmentRequestDto.name body;
     CreateEnvironmentCommand.userId := IJwtPayload._id user;
     CreateEnvironmentCommand.organizationId := IJwtPayload.organizationId user |}.

(** [POST /] *)
Definition createEnvironment (user : IJwtPayload.t)
    (body : CreateEnvironmentRequestDto.t) : M W Env :=
  await command ← create (createEnvironment_data user body);
  await r ← createEnvironmentUsecase this command;
  ret r.

(** The object literal of lines 103 to 106. *)
Definition getMyEnvironments_data (user : IJwtPayload.t) : GetMyEnvironmentsCommand.t :=
  {| GetMyEnvironmentsCommand.userId := IJwtPayload._id user;
     GetMyEnvironmentsCommand.organizationId := IJwtPayload.organizationId user |}.

(** [GET /] *)
Definition getMyEnvironments (user : IJwtPayload.t) : M W (list Env) :=
  await command ← create (getMyEnvironments_data user);
  await r ← getMyEnvironmentsUsecase this command;
  ret r.

(** The object literal of lines 140 to 144. *)
Definition deleteMyEnvironment_data (user : IJwtPayload.t) (envId : string)
    : DeleteEnvironmentCommand.t :=
  {| DeleteEnvironmentCommand._id := envId;
     DeleteEnvironmentCommand.organizationId := IJwtPayload.organizationId user;
     DeleteEnvironmentCommand.userId := IJwtPayload._id user |}.

(** [DELETE /:envId] *)
Definition deleteMyEnvironment (user : IJwtPayload.t) (envId : string) : M W Deleted :=
  await command ← create (deleteMyEnvironment_data user envId);
  await r ← deleteEnvironmentUsecase this command;
  ret r.

End handlers.

End EnvironmentsControllerCrud.

(** ** The controller over the update use-case *)

Module Wiring.

(** The constructor's [updateEnvironmentUsecase: UpdateEnvironment]: the
    controller whose update use-case is [UpdateEnvironment] over a
    repository, the other use-cases being whatever is injected. *)
Definition over_repository {Store Ack ApiKeys Env : Type}
    (environmentRepository : EnvironmentRepository.t Store Ack)
    (getApiKeys regenerateApiKeys
       : GetApiKeysCommand.t → M (EnvironmentRepository.World Store) ApiKeys)
    (updateWidgetSettings
       : UpdateWidgetSettingsCommand.t → M (EnvironmentRepository.World Store) Env)
    : EnvironmentsController.t (EnvironmentRepository.World Store) Ack ApiKeys Env :=
  {| EnvironmentsController.updateEnvironmentUsecase :=
       UpdateEnvironment.execute environmentRepository;
     EnvironmentsController.getApiKeysUsecase := getApiKeys;
     EnvironmentsController.regenerateApiKeysUsecase := regenerateApiKeys;
     EnvironmentsController.updateWidgetSettingsUsecase := updateWidgetSettings |}.

End Wiring.

(** ** Sessions that differ in one property *)

Module Session.

(** The session with another current environment, everything else the same. *)
Definition in_environment (env : string) (user : IJwtPayload.t) : IJwtPayload.t :=
  {| IJwtPayload._id := IJwtPayload._id user;
     IJwtPayload.organizationId := IJwtPayload.organizationId user;
     IJwtPayload.environmentId := env |}.

End Session.

(** ** More concrete data *)

Module Requests.

(** Another session: user [U2] of organization [O2], working in [env2]. *)
Definition other_session : IJwtPayload.t :=
  {| IJwtPayload._id := "U2";
     IJwtPayload.organizationId := "O2";
     IJwtPayload.environmentId := "env2" |}.

(** The body [{name: "Live"}]. *)
Definition rename_body : UpdateEnvironmentRequestDto.t :=
  {| UpdateEnvironmentRequestDto.name := Some "Live";
     UpdateEnvironmentRequestDto.identifier := None;
     UpdateEnvironmentRequestDto.parentId := None |}.

(** The command of [Scenario.rename], sent by another user of another
    organization. *)
Definition rename_by_another : UpdateEnvironmentCommand.t :=
  {| UpdateEnvironmentCommand._id := "env1";
     UpdateEnvironmentCommand.organizationId := "O7";
     UpdateEnvironmentCommand.userId := "U7";
     UpdateEnvironmentCommand.name := Some "Live";
     UpdateEnvironmentCommand.identifier := None;
     UpdateEnvironmentCommand._parentId := None |}.

(** A rename of an environment the store does not hold. *)
Definition rename_unknown : UpdateEnvironmentCommand.t :=
  {| UpdateEnvironmentCommand._id := "env9";
     UpdateEnvironmentCommand.organizationId := "O1";
     UpdateEnvironmentCommand.userId := "U1";
     UpdateEnvironmentCommand.name := Some "Live";
     UpdateEnvironmentCommand.identifier := None;
     UpdateEnvironmentCommand._parentId := None |}.

(** The controller over the in-memory store, the other use-cases unwired. *)
Definition controller
    : EnvironmentsController.t (EnvironmentRepository.World InMemoryStore.Collection)
        nat unit unit :=
  Wiring.over_repository InMemoryStore.repository
    (λ _, throw Scenario.not_wired) (λ _, throw Scenario.not_wired)
    (λ _, throw Scenario.not_wired).

End Requests.

(** * Properties *)

(** ** Truthiness of optional strings *)

Module JsFacts.

Lemma truthy_of_optional (v : option string) :
  Js.truthy (Js.of_optional v) = true ↔ ∃ s, v = Some s ∧ s ≠ EmptyString.
Proof.
  destruct v as [[|c s]|]; simpl; split.
  - discriminate.
  - intros (s & [= <-] & Hs). by destruct Hs.
  - intros _. by exists (String c s).
  - done.
  - discriminate.
  - intros (s & [=] & _).
Qed.

Lemma not_truthy_absent_or_empty (v : option string) :
  v = None ∨ v = Some EmptyString → Js.truthy (Js.of_optional v) = false.
Proof. by intros [-> | ->]. Qed.

Lemma strict_ne_empty_of_optional (v : option string) :
  Js.strict_ne_empty (Js.of_optional v) = false ↔ v = Some EmptyString.
Proof.
  destruct v as [[|c s]|]; simpl; split; done.
Qed.

End JsFacts.

(** ** Sequencing *)

Module AsyncFacts.

(** [return await m] is [m]. *)
Lemma bind_ret {W A} (m : M W A) (w : W) : Async.bind m Async.ret w = m w.
Proof. unfold Async.bind, Async.ret. by destruct (m w) as [[a|e] w']. Qed.

Lemma ret_bind {W A B} (a : A) (k : A → M W B) (w : W) :
  Async.bind (Async.ret a) k w = k a w.
Proof. reflexivity. Qed.

(** Nothing runs after a throw. *)
Lemma throw_bind {W A B} (e : Exception) (k : A → M W B) (w : W) :
  Async.bind (Async.throw e) k w = (Thrown e, w).
Proof. reflexivity. Qed.

End AsyncFacts.

(** ** The payload of the update use-case *)

Module UpdatePayloadFacts.
Import UpdateEnvironmentCommand UpdateEnvironment.

(** The payload, property by property. *)
Lemma lookup_field (command : UpdateEnvironmentCommand.t) (f : Field) :
  updatePayload command !! key f =
    if guard f command then Some (Js.of_optional (value f command)) else None.
Proof.
  unfold updatePayload, guard, Js.assign.
  destruct f; simpl;
    repeat match goal with
           | |- context [if ?b then _ else _] => destruct b eqn:?
           end;
    by simplify_map_eq.
Qed.

Lemma lookup_other (command : UpdateEnvironmentCommand.t) (k : string) :
  k ≠ "name" → k ≠ "identifier" → k ≠ "_parentId" →
  updatePayload command !! k = None.
Proof.
  intros Hn Hi Hp. unfold updatePayload, Js.assign.
  repeat match goal with
         | |- context [if ?b then _ else _] => destruct b
         end;
    by simplify_map_eq.
Qed.

Lemma dom_payload (command : UpdateEnvironmentCommand.t) :
  dom (updatePayload command) ⊆ ({[ "name"; "identifier"; "_parentId" ]} : gset string).
Proof.
  intros k Hk. apply elem_of_dom in Hk as [v Hv].
  destruct (decide (k = "name")) as [->|Hn]; [set_solver|].
  destruct (decide (k = "identifier")) as [->|Hi]; [set_solver|].
  destruct (decide (k = "_parentId")) as [->|Hp]; [set_solver|].
  by rewrite lookup_other in Hv.
Qed.

(** An empty name empties the whole payload. *)
Lemma empty_name_empty_payload (command : UpdateEnvironmentCommand.t) :
  name command = Some EmptyString → updatePayload command = ∅.
Proof.
  intros Hname. unfold updatePayload. rewrite Hname. simpl.
  by rewrite !andb_false_r.
Qed.

Example payload_of_empty_name :
  updatePayload Scenario.empty_name = ∅.
Proof. reflexivity. Qed.

Example payload_of_no_name :
  updatePayload Scenario.no_name
    = {[ "_parentId" := Js.Str "env0"; "identifier" := Js.Str "prod-v2" ]}.
Proof. apply map_eq. intros k. vm_compute. reflexivity. Qed.

Example payload_of_rename :
  map_to_list (updatePayload Scenario.rename) = [ ("name", Js.Str "Live") ].
Proof. vm_compute. reflexivity. Qed.

End UpdatePayloadFacts.

(** ** What one run of the use-case does to the world *)

Module ExecuteFacts.
Import EnvironmentRepository UpdateEnvironment.

Section run.
Context {Store Ack : Type}.
Variable environmentRepository : EnvironmentRepository.t Store Ack.
Variable command : UpdateEnvironmentCommand.t.
Variable w : World Store.

(** [execute] is the one repository call, seen from outside. *)
Lemma execute_unfold :
  execute environmentRepository command w =
    call_update environmentRepository (updateFilter command) (updateDocument command) w.
Proof. unfold execute. apply AsyncFacts.bind_ret. Qed.

Lemma execute_outcome :
  outcome (execute environmentRepository command w) =
    (update environmentRepository (updateFilter command) (updateDocument command) (store w)).1.
Proof. by rewrite execute_unfold. Qed.

Lemma execute_store :
  store (world (execute environmentRepository command w)) =
    (update environmentRepository (updateFilter command) (updateDocument command) (store w)).2.
Proof. by rewrite execute_unfold. Qed.

Lemma execute_calls :
  calls (world (execute environmentRepository command w)) =
    calls w ++ [ {| query := updateFilter command; updateBody := updateDocument command |} ].
Proof. by rewrite execute_unfold. Qed.

Lemma execute_calls_since :
  calls_since w (world (execute environmentRepository command w)) =
    [ {| query := updateFilter command; updateBody := updateDocument command |} ].
Proof.
  unfold calls_since. rewrite execute_calls.
  by rewrite drop_app_length.
Qed.

End run.

End ExecuteFacts.

(** ** The partial-field merge of the store *)

Module MergeFacts.
Import InMemoryStore.

Lemma merge_lookup_untouched (b : gmap string Js.Object) (doc : Js.Object) (k : string) :
  (∀ p, b !! "$set" = Some p → p !! k = None) →
  merge b doc !! k = doc !! k.
Proof.
  intros Hk. unfold merge.
  destruct (b !! "$set") as [p|] eqn:Hp; simpl.
  - apply lookup_union_r. by apply Hk.
  - by rewrite (left_id_L ∅ (∪)).
Qed.

Lemma update_documents_frame (q : Js.Object) (b : gmap string Js.Object)
    (c : Collection) (k : string) :
  (∀ p, b !! "$set" = Some p → p !! k = None) →
  Forall2 (λ doc doc', doc' !! k = doc !! k) c (update_documents q b c).
Proof.
  intros Hk. unfold update_documents.
  induction c as [|doc c IH]; simpl; constructor; [|exact IH].
  destruct (matches q doc); [|done].
  by apply merge_lookup_untouched.
Qed.

(** An update neither adds nor removes documents. *)
Lemma update_documents_length (q : Js.Object) (b : gmap string Js.Object) (c : Collection) :
  length (update_documents q b c) = length c.
Proof. unfold update_documents. by rewrite length_fmap. Qed.

(** A document that does not match the filter is not touched at all. *)
Lemma update_documents_no_match (q : Js.Object) (b : gmap string Js.Object)
    (c : Collection) (i : nat) (doc : Js.Object) :
  c !! i = Some doc → matches q doc = false →
  update_documents q b c !! i = Some doc.
Proof.
  intros Hi Hm. unfold update_documents.
  rewrite list_lookup_fmap, Hi. simpl. by rewrite Hm.
Qed.

End MergeFacts.

(** ** The update use-case: payload and filter *)

Module UpdateEnvironmentSpec.
Import EnvironmentRepository UpdateEnvironmentCommand UpdateEnvironment.
Import UpdatePayloadFacts ExecuteFacts MergeFacts.

(** The payload under [$set] of the call [execute] makes is [updatePayload]. *)
Lemma sent_payload {Store Ack} (repo : EnvironmentRepository.t Store Ack)
    (command : UpdateEnvironmentCommand.t) (w : World Store)
    (call : UpdateCall) (p : Js.Object) :
  call ∈ calls_since w (world (execute repo command w)) →
  updateBody call !! "$set" = Some p →
  p = updatePayload command.
Proof.
  rewrite execute_calls_since. intros ->%list_elem_of_singleton. simpl.
  unfold updateDocument. rewrite lookup_singleton_eq. congruence.
Qed.

(** C1.  A field (name, identifier, parent-id) is in the update payload only
    if that field is truthy and [command.name !== ''] (and then with the
    value the command carries); in particular a command with the name [""]
    and the identifier ["prod-v2"] has neither the identifier nor the
    parent-id in its payload: the identifier update is suppressed. *)
Theorem field_included_only_if_truthy_and_name_not_empty
    (command : UpdateEnvironmentCommand.t) (f : Field) :
  (∀ v, updatePayload command !! key f = Some v ↔
        v = Js.of_optional (value f command)
        ∧ Js.truthy (Js.of_optional (value f command)) = true
        ∧ Js.strict_ne_empty (Js.of_optional (name command)) = true)
  ∧ (name command = Some EmptyString → identifier command = Some "prod-v2" →
     updatePayload command !! "identifier" = None
     ∧ updatePayload command !! "_parentId" = None).
Proof.
  split.
  - intros v. rewrite lookup_field. unfold guard.
    destruct (Js.truthy _), (Js.strict_ne_empty _); simpl;
      (split; [intros [= <-] || intros [=] | intros (-> & Ht & Hn)]);
      done.
  - intros Hname _. by rewrite (empty_name_empty_payload _ Hname).
Qed.

Lemma field_included_only_if_truthy_and_name_not_empty_witness :
  updatePayload Scenario.empty_name !! "identifier" = None
  ∧ updatePayload Scenario.empty_name !! "_parentId" = None.
Proof.
  apply (field_included_only_if_truthy_and_name_not_empty Scenario.empty_name FIdentifier);
    reflexivity.
Defined.

(** C9.  When the name is absent ([undefined]) rather than empty, the guard
    [command.name !== ''] holds: a truthy identifier and a truthy parent-id
    are in the payload.  The coupling drops a truthy identifier or parent-id
    only when the name is the empty string. *)
Theorem absent_name_does_not_suppress (command : UpdateEnvironmentCommand.t) :
  (name command = None →
     Js.strict_ne_empty (Js.of_optional (name command)) = true
     ∧ (Js.truthy (Js.of_optional (identifier command)) = true →
        updatePayload command !! "identifier" = Some (Js.of_optional (identifier command)))
     ∧ (Js.truthy (Js.of_optional (_parentId command)) = true →
        updatePayload command !! "_parentId" = Some (Js.of_optional (_parentId command))))
  ∧ (∀ f, Js.truthy (Js.of_optional (value f command)) = true →
          updatePayload command !! key f = None →
          name command = Some EmptyString).
Proof.
  split.
  - intros Hname. split; [by rewrite Hname|].
    split; intros Ht.
    + change "identifier" with (key FIdentifier).
      rewrite lookup_field. unfold guard. simpl value.
      by rewrite Ht, Hname.
    + change "_parentId" with (key FParentId).
      rewrite lookup_field. unfold guard. simpl value.
      by rewrite Ht, Hname.
  - intros f Ht. rewrite lookup_field. unfold guard. rewrite Ht. simpl.
    destruct (Js.strict_ne_empty _) eqn:Hne; [done|].
    intros _. by apply JsFacts.strict_ne_empty_of_optional.
Qed.

Lemma absent_name_does_not_suppress_witness :
  updatePayload Scenario.no_name !! "identifier" = Some (Js.Str "prod-v2")
  ∧ updatePayload Scenario.no_name !! "_parentId" = Some (Js.Str "env0").
Proof.
  destruct (absent_name_does_not_suppress Scenario.no_name) as [H _].
  destruct (H eq_refl) as (_ & Hi & Hp).
  split; [apply Hi | apply Hp]; reflexivity.
Defined.

(** C3.  A field that is absent ([undefined]) or the empty string is never
    in the [$set] payload sent to the store, so the stored value of that
    field is left as it was by the update. *)
Theorem absent_or_empty_field_not_written {Store Ack}
    (repo : EnvironmentRepository.t Store Ack)
    (command : UpdateEnvironmentCommand.t) (f : Field) (w : World Store)
    (c : InMemoryStore.Collection) (log : list UpdateCall) :
  value f command = None ∨ value f command = Some EmptyString →
  (∀ call p, call ∈ calls_since w (world (execute repo command w)) →
             updateBody call !! "$set" = Some p →
             p !! key f = None)
  ∧ Forall2 (λ doc doc', doc' !! key f = doc !! key f) c
      (store (world (execute InMemoryStore.repository command
                       {| store := c; calls := log |}))).
Proof.
  intros Hf.
  assert (updatePayload command !! key f = None) as Hnone.
  { rewrite lookup_field. unfold guard.
    by rewrite (JsFacts.not_truthy_absent_or_empty _ Hf). }
  split.
  - intros call p Hcall Hp. by rewrite (sent_payload _ _ _ _ _ Hcall Hp).
  - rewrite execute_store. simpl.
    apply update_documents_frame. intros p.
    unfold updateDocument. rewrite lookup_singleton_eq. by intros [= <-].
Qed.

Lemma absent_or_empty_field_not_written_witness :
  (∀ call p,
     call ∈ calls_since Scenario.initial
              (world (execute InMemoryStore.repository Scenario.empty_name Scenario.initial)) →
     updateBody call !! "$set" = Some p →
     p !! "name" = None)
  ∧ Forall2 (λ doc doc', doc' !! "name" = doc !! "name")
      [Scenario.production; Scenario.development]
      (store (world (execute InMemoryStore.repository Scenario.empty_name Scenario.initial))).
Proof.
  apply (absent_or_empty_field_not_written InMemoryStore.repository
           Scenario.empty_name FName Scenario.initial
           [Scenario.production; Scenario.development] []).
  right. reflexivity.
Defined.

(** C10.  The [$set] payload sent to the store has at most the three keys
    [name], [identifier] and [_parentId]; the [_id], organization id and user
    id of the command are never written, so every other field of a stored
    environment is left as it was by every update. *)
Theorem payload_has_at_most_three_keys {Store Ack}
    (repo : EnvironmentRepository.t Store Ack)
    (command : UpdateEnvironmentCommand.t) (w : World Store)
    (c : InMemoryStore.Collection) (log : list UpdateCall) :
  (∀ call p, call ∈ calls_since w (world (execute repo command w)) →
             updateBody call !! "$set" = Some p →
             dom p ⊆ ({[ "name"; "identifier"; "_parentId" ]} : gset string)
             ∧ p !! "_id" = None
             ∧ p !! "organizationId" = None
             ∧ p !! "_organizationId" = None
             ∧ p !! "userId" = None)
  ∧ (∀ k, k ≠ "name" → k ≠ "identifier" → k ≠ "_parentId" →
          Forall2 (λ doc doc', doc' !! k = doc !! k) c
            (store (world (execute InMemoryStore.repository command
                             {| store := c; calls := log |})))).
Proof.
  split.
  - intros call p Hcall Hp. rewrite (sent_payload _ _ _ _ _ Hcall Hp).
    split; [apply dom_payload|].
    repeat split; by apply lookup_other.
  - intros k Hn Hi Hp. rewrite execute_store. simpl.
    apply update_documents_frame. intros p.
    unfold updateDocument. rewrite lookup_singleton_eq. intros [= <-].
    by apply lookup_other.
Qed.

Lemma payload_has_at_most_three_keys_witness :
  Forall2 (λ doc doc', doc' !! "_organizationId" = doc !! "_organizationId")
    [Scenario.production; Scenario.development]
    (store (world (execute InMemoryStore.repository Scenario.rename Scenario.initial))).
Proof.
  apply (payload_has_at_most_three_keys InMemoryStore.repository
           Scenario.rename Scenario.initial
           [Scenario.production; Scenario.development] []);
    discriminate.
Defined.

(** C2.  The filter passed to the store's update holds the environment id
    only ([_id = command._id]); the organization id of the command is no part
    of it, and the run is the same whatever organization id the command
    carries: the lookup is not scoped by organization. *)
Theorem filter_is_the_id_only {Store Ack}
    (repo : EnvironmentRepository.t Store Ack)
    (command : UpdateEnvironmentCommand.t) (w : World Store) :
  query <$> calls_since w (world (execute repo command w))
    = [ ({[ "_id" := Js.Str (_id command) ]} : Js.Object) ]
  ∧ dom (updateFilter command) = ({[ "_id" ]} : gset string)
  ∧ updateFilter command !! "organizationId" = None
  ∧ updateFilter command !! "_organizationId" = None
  ∧ (∀ org, execute repo (with_organizationId org command) w = execute repo command w).
Proof.
  split; [by rewrite execute_calls_since|].
  split; [unfold updateFilter; by rewrite dom_singleton_L|].
  repeat split.
Qed.

(** The gap at work: a command carrying organization [O2] renames the
    environment of organization [O1]. *)
Example rename_across_organizations :
  (λ doc, (doc !! "_organizationId", doc !! "name"))
    <$> store (world (execute InMemoryStore.repository Scenario.rename Scenario.initial))
  = [ (Some (Js.Str "O1"), Some (Js.Str "Live"));
      (Some (Js.Str "O1"), Some (Js.Str "Development")) ].
Proof. vm_compute. reflexivity. Qed.




(** C8.  [execute] returns exactly what the store's update returned, neither
    transformed nor wrapped. *)
Theorem execute_returns_the_store_result {Store Ack}
    (repo : EnvironmentRepository.t Store Ack)
    (command : UpdateEnvironmentCommand.t) (w : World Store) :
  outcome (execute repo command w)
    = (update repo (updateFilter command) (updateDocument command) (store w)).1
  ∧ (∀ ack, (update repo (updateFilter command) (updateDocument command) (store w)).1
              = Returned ack →
            outcome (execute repo command w) = Returned ack).
Proof.
  split; [apply execute_outcome|].
  intros ack Hack. by rewrite execute_outcome.
Qed.

Lemma execute_returns_the_store_result_witness :
  outcome (execute InMemoryStore.repository Scenario.rename Scenario.initial) = Returned 1.
Proof.
  apply (execute_returns_the_store_result InMemoryStore.repository
           Scenario.rename Scenario.initial).
  vm_compute. reflexivity.
Defined.

End UpdateEnvironmentSpec.

(** ** The controller: from session and request to command *)

Module EnvironmentsControllerSpec.
Import EnvironmentsController.

Section handlers.
Context {W Ack ApiKeys Env : Type}.
Context {update_validation : Command UpdateEnvironmentCommand.t}.
Context {api_keys_validation : Command GetApiKeysCommand.t}.
Context {widget_validation : Command UpdateWidgetSettingsCommand.t}.
Variable this : EnvironmentsController.t W Ack ApiKeys Env.

(** A handler that creates a command and awaits a use-case on it: the
    use-case runs on the very bundle given to [create], unless validation
    throws first. *)
Lemma create_then_execute {T R} `{!Command T} (data : T) (usecase : T → M W R) (w : W) :
  (await command ← create data; await r ← usecase command; ret r) w =
    match validate data with
    | None => usecase data w
    | Some e => (Thrown e, w)
    end.
Proof.
  unfold create, Async.bind at 1.
  destruct (validate data) as [e|]; simpl; [done|].
  apply AsyncFacts.bind_ret.
Qed.

(** C6.  The update handler builds an [UpdateEnvironmentCommand] whose [_id]
    is the [envId] path parameter, whose organization and user ids are those
    of the session, and whose name, identifier and [_parentId] are the name,
    identifier and [parentId] of the body; the use-case runs on that command
    as it is. *)
Theorem update_handler_builds_the_command (user : IJwtPayload.t) (envId : string)
    (payload : UpdateEnvironmentRequestDto.t) (w : W) :
  ∃ command : UpdateEnvironmentCommand.t,
    UpdateEnvironmentCommand._id command = envId
    ∧ UpdateEnvironmentCommand.organizationId command = IJwtPayload.organizationId user
    ∧ UpdateEnvironmentCommand.userId command = IJwtPayload._id user
    ∧ UpdateEnvironmentCommand.name command = UpdateEnvironmentRequestDto.name payload
    ∧ UpdateEnvironmentCommand.identifier command
      = UpdateEnvironmentRequestDto.identifier payload
    ∧ UpdateEnvironmentCommand._parentId command
      = UpdateEnvironmentRequestDto.parentId payload
    ∧ updateMyEnvironment this user envId payload w =
        match validate command with
        | None => updateEnvironmentUsecase this command w
        | Some e => (Thrown e, w)
        end.
Proof.
  exists (updateMyEnvironment_data user envId payload).
  repeat (split; [reflexivity|]).
  apply create_then_execute.
Qed.

(** C7.  The widget-settings handler builds an [UpdateWidgetSettingsCommand]
    whose organization and environment ids are those of the session (the
    body has no say in them) and whose encryption flag is that of the body,
    and returns what the use-case returns. *)
Theorem widget_handler_builds_the_command (user : IJwtPayload.t)
    (body : UpdateWidgetSettingsRequestDto.t) (w : W) :
  (∃ command : UpdateWidgetSettingsCommand.t,
     UpdateWidgetSettingsCommand.organizationId command = IJwtPayload.organizationId user
     ∧ UpdateWidgetSettingsCommand.environmentId command = IJwtPayload.environmentId user
     ∧ UpdateWidgetSettingsCommand.notificationCenterEncryption command
       = UpdateWidgetSettingsRequestDto.notificationCenterEncryption body
     ∧ updateWidgetSettings this user body w =
         match validate command with
         | None => updateWidgetSettingsUsecase this command w
         | Some e => (Thrown e, w)
         end)
  ∧ (∀ body' : UpdateWidgetSettingsRequestDto.t,
       UpdateWidgetSettingsCommand.organizationId (updateWidgetSettings_data user body')
         = UpdateWidgetSettingsCommand.organizationId (updateWidgetSettings_data user body)
       ∧ UpdateWidgetSettingsCommand.environmentId (updateWidgetSettings_data user body')
         = UpdateWidgetSettingsCommand.environmentId (updateWidgetSettings_data user body)).
Proof.
  split; [|by intros body'].
  exists (updateWidgetSettings_data user body).
  repeat (split; [reflexivity|]).
  apply create_then_execute.
Qed.

(** C5.  For one session, the regenerate handler builds a command equal to
    that of the get handler: both build a [GetApiKeysCommand] from the user,
    organization and environment ids of the session, and each hands it to its
    own use-case. *)
Theorem regenerate_builds_the_command_of_get (user : IJwtPayload.t) (w : W) :
  regenerateOrganizationApiKeys_data user = getOrganizationApiKeys_data user
  ∧ create (W := W) (regenerateOrganizationApiKeys_data user) w
    = create (getOrganizationApiKeys_data user) w
  ∧ ∃ command : GetApiKeysCommand.t,
      GetApiKeysCommand.userId command = IJwtPayload._id user
      ∧ GetApiKeysCommand.organizationId command = IJwtPayload.organizationId user
      ∧ GetApiKeysCommand.environmentId command = IJwtPayload.environmentId user
      ∧ getOrganizationApiKeys this user w =
          match validate command with
          | None => getApiKeysUsecase this command w
          | Some e => (Thrown e, w)
          end
      ∧ regenerateOrganizationApiKeys this user w =
          match validate command with
          | None => regenerateApiKeysUsecase this command w
          | Some e => (Thrown e, w)
          end.
Proof.
  split; [reflexivity|]. split; [reflexivity|].
  exists (getOrganizationApiKeys_data user).
  repeat (split; [reflexivity|]).
  split; apply create_then_execute.
Qed.

End handlers.

(** The scenario of the specification, end to end: the request
    [PUT /env1 {name: "", identifier: "prod-v2"}] reaches the store as one
    call with an empty [$set], and the stored identifier stays ["prod"]. *)
Example put_empty_name_suppresses_identifier :
  ∃ w',
    updateMyEnvironment (update_validation := Scenario.accept_all) Scenario.controller
      Scenario.session "env1" Scenario.put_body Scenario.initial = (Returned 1, w')
    ∧ EnvironmentRepository.calls w'
      = [ {| EnvironmentRepository.query := {[ "_id" := Js.Str "env1" ]};
             EnvironmentRepository.updateBody := {[ "$set" := ∅ ]} |} ]
    ∧ (λ doc : Js.Object, doc !! "identifier") <$> EnvironmentRepository.store w'
      = [ Some (Js.Str "prod"); Some (Js.Str "dev") ].
Proof. eexists. split; [vm_compute; reflexivity|]. split; vm_compute; reflexivity. Qed.

End EnvironmentsControllerSpec.

(** * Further properties *)

(** ** The update use-case, whatever the repository *)

Module UpdateEnvironmentMore.
Import EnvironmentRepository UpdateEnvironmentCommand UpdateEnvironment.
Import UpdatePayloadFacts ExecuteFacts.

(** A key of the payload is one of the three, whatever its value. *)
Lemma key_of_payload (command : UpdateEnvironmentCommand.t) (k : string) (v : Js.Value) :
  updatePayload command !! k = Some v → ∃ f, k = key f.
Proof.
  intros Hk.
  destruct (decide (k = "name")) as [->|Hn]; [by exists FName|].
  destruct (decide (k = "identifier")) as [->|Hi]; [by exists FIdentifier|].
  destruct (decide (k = "_parentId")) as [->|Hp]; [by exists FParentId|].
  by rewrite lookup_other in Hk.
Qed.

(** What a property of the payload can be. *)
Lemma payload_lookup_inv (command : UpdateEnvironmentCommand.t) (k : string) (v : Js.Value) :
  updatePayload command !! k = Some v →
  ∃ f s, k = key f ∧ value f command = Some s ∧ s ≠ EmptyString ∧ v = Js.Str s.
Proof.
  intros Hk. destruct (key_of_payload _ _ _ Hk) as [f ->].
  rewrite lookup_field in Hk. unfold guard in Hk.
  destruct (Js.truthy (Js.of_optional (value f command))) eqn:Ht; [|done].
  apply JsFacts.truthy_of_optional in Ht as (s & Hs & Hne).
  destruct (Js.strict_ne_empty _); [|done].
  simpl in Hk. injection Hk as <-.
  exists f, s. by rewrite Hs.
Qed.

(** X1.  Whatever [execute] puts under [$set] is a non-empty string taken
    from the field of the command that belongs to the key: never
    [undefined], never the empty string, never another field's value. *)
Theorem payload_values_are_nonempty_strings
    (command : UpdateEnvironmentCommand.t) (k : string) (v : Js.Value) :
  updateDocument command !! "$set" = Some (updatePayload command)
  ∧ (updatePayload command !! k = Some v →
     ∃ f s, k = key f ∧ value f command = Some s ∧ s ≠ EmptyString ∧ v = Js.Str s).
Proof.
  split; [apply lookup_singleton_eq|].
  apply payload_lookup_inv.
Qed.

Lemma payload_values_are_nonempty_strings_witness :
  ∃ f s, "name" = key f ∧ value f Scenario.rename = Some s
         ∧ s ≠ EmptyString ∧ Js.Str "Live" = Js.Str s.
Proof.
  apply (payload_values_are_nonempty_strings Scenario.rename "name" (Js.Str "Live")).
  reflexivity.
Defined.

(** All three fields falsy, or the name empty: the two ways to an empty
    payload. *)
Lemma payload_empty_iff (command : UpdateEnvironmentCommand.t) :
  updatePayload command = ∅ ↔
    name command = Some EmptyString
    ∨ (∀ f, Js.truthy (Js.of_optional (value f command)) = false).
Proof.
  split.
  - intros Hempty.
    destruct (Js.strict_ne_empty (Js.of_optional (name command))) eqn:Hne.
    + right. intros f.
      pose proof (lookup_field command f) as Hf.
      rewrite Hempty, lookup_empty in Hf. unfold guard in Hf. rewrite Hne in Hf.
      by destruct (Js.truthy _).
    + left. by apply JsFacts.strict_ne_empty_of_optional.
  - intros [Hname | Hfalsy]; [by apply empty_name_empty_payload|].
    apply map_eq. intros k. rewrite lookup_empty.
    destruct (updatePayload command !! k) as [v|] eqn:Hk; [|done].
    destruct (key_of_payload _ _ _ Hk) as [f ->].
    rewrite lookup_field in Hk. unfold guard in Hk. by rewrite Hfalsy in Hk.
Qed.

(** X2.  [execute] has no early return: when there is nothing to write (the
    name is the empty string, or none of the three fields is truthy, and in
    no other case) the payload is empty, and the repository is still called,
    once, with the filter on [_id] and an empty [$set]. *)
Theorem empty_payload_is_still_sent {Store Ack}
    (repo : EnvironmentRepository.t Store Ack)
    (command : UpdateEnvironmentCommand.t) (w : World Store) :
  (updatePayload command = ∅ ↔
     name command = Some EmptyString
     ∨ (∀ f, Js.truthy (Js.of_optional (value f command)) = false))
  ∧ (updatePayload command = ∅ →
     calls_since w (world (execute repo command w))
       = [ {| query := {[ "_id" := Js.Str (_id command) ]};
              updateBody := {[ "$set" := ∅ ]} |} ]).
Proof.
  split; [apply payload_empty_iff|].
  intros Hempty. rewrite execute_calls_since.
  unfold updateDocument, updateFilter. by rewrite Hempty.
Qed.

Lemma empty_payload_is_still_sent_witness :
  calls_since Scenario.initial
    (world (execute InMemoryStore.unreachable Scenario.empty_name Scenario.initial))
    = [ {| query := {[ "_id" := Js.Str "env1" ]};
           updateBody := {[ "$set" := ∅ ]} |} ].
Proof.
  apply (empty_payload_is_still_sent InMemoryStore.unreachable
           Scenario.empty_name Scenario.initial).
  reflexivity.
Defined.

(** X3.  A run depends on the command through [_id], [name], [identifier]
    and [_parentId] only: the acting user id and the organization id never
    reach the repository. *)
Theorem execute_ignores_user_and_organization {Store Ack}
    (repo : EnvironmentRepository.t Store Ack)
    (command command' : UpdateEnvironmentCommand.t) (w : World Store) :
  _id command = _id command' →
  name command = name command' →
  identifier command = identifier command' →
  _parentId command = _parentId command' →
  execute repo command w = execute repo command' w.
Proof.
  destruct command, command'. simpl. by intros -> -> -> ->.
Qed.

Lemma execute_ignores_user_and_organization_witness :
  execute InMemoryStore.repository Scenario.rename Scenario.initial
  = execute InMemoryStore.repository Requests.rename_by_another Scenario.initial.
Proof.
  apply (execute_ignores_user_and_organization InMemoryStore.repository
           Scenario.rename Requests.rename_by_another Scenario.initial);
    reflexivity.
Defined.

End UpdateEnvironmentMore.

(** ** The update use-case over the partial-field merge of the store *)

Module UpdateOverStore.
Import EnvironmentRepository UpdateEnvironmentCommand UpdateEnvironment InMemoryStore.
Import UpdatePayloadFacts ExecuteFacts.

(** The filter of [execute] selects by [_id], and by nothing else. *)
Lemma matches_updateFilter (command : UpdateEnvironmentCommand.t) (doc : Js.Object) :
  matches (updateFilter command) doc = true ↔
    doc !! "_id" = Some (Js.Str (_id command)).
Proof.
  unfold matches, updateFilter.
  rewrite bool_decide_eq_true. apply map_singleton_subseteq_l.
Qed.

Lemma merge_updateDocument (command : UpdateEnvironmentCommand.t) (doc : Js.Object) :
  merge (updateDocument command) doc = updatePayload command ∪ doc.
Proof. unfold merge, updateDocument. by rewrite lookup_singleton_eq. Qed.

(** The merge never moves a document in or out of the filter. *)
Lemma merge_keeps_match (command : UpdateEnvironmentCommand.t) (doc : Js.Object) :
  matches (updateFilter command) (merge (updateDocument command) doc)
  = matches (updateFilter command) doc.
Proof.
  apply eq_true_iff_eq. rewrite !matches_updateFilter, merge_updateDocument.
  rewrite lookup_union_r; [done|]. by apply lookup_other.
Qed.

Lemma merge_twice (command : UpdateEnvironmentCommand.t) (doc : Js.Object) :
  merge (updateDocument command) (merge (updateDocument command) doc)
  = merge (updateDocument command) doc.
Proof.
  rewrite !merge_updateDocument.
  by rewrite (assoc_L (∪)), (idemp_L (∪)).
Qed.

Lemma run_store (command : UpdateEnvironmentCommand.t) (c : Collection)
    (log : list UpdateCall) :
  store (world (execute repository command {| store := c; calls := log |}))
  = update_documents (updateFilter command) (updateDocument command) c.
Proof. by rewrite execute_store. Qed.

Lemma update_documents_twice (command : UpdateEnvironmentCommand.t) (c : Collection) :
  update_documents (updateFilter command) (updateDocument command)
    (update_documents (updateFilter command) (updateDocument command) c)
  = update_documents (updateFilter command) (updateDocument command) c.
Proof.
  unfold update_documents. rewrite <- list_fmap_compose.
  apply list_fmap_ext. intros i doc _. simpl.
  destruct (matches (updateFilter command) doc) eqn:Hm.
  - by rewrite merge_keeps_match, Hm, merge_twice.
  - by rewrite Hm.
Qed.

(** X10.  Read after write: in every stored document whose [_id] is that of
    the command, a field whose guard passes holds the command's value after
    the run. *)
Theorem written_field_is_read_back (command : UpdateEnvironmentCommand.t) (f : Field)
    (c : Collection) (log : list UpdateCall) (i : nat) (doc : Js.Object) :
  guard f command = true →
  c !! i = Some doc →
  doc !! "_id" = Some (Js.Str (_id command)) →
  ∃ doc',
    store (world (execute repository command {| store := c; calls := log |})) !! i
      = Some doc'
    ∧ doc' !! key f = Some (Js.of_optional (value f command)).
Proof.
  intros Hguard Hi Hid.
  exists (merge (updateDocument command) doc). split.
  - rewrite run_store. unfold update_documents.
    rewrite list_lookup_fmap, Hi. simpl.
    by rewrite (proj2 (matches_updateFilter command doc) Hid).
  - rewrite merge_updateDocument. apply lookup_union_Some_l.
    by rewrite lookup_field, Hguard.
Qed.

Lemma written_field_is_read_back_witness :
  ∃ doc',
    store (world (execute repository Scenario.rename Scenario.initial)) !! 0
      = Some doc'
    ∧ doc' !! "name" = Some (Js.Str "Live").
Proof.
  apply (written_field_is_read_back Scenario.rename FName
           [Scenario.production; Scenario.development] [] 0 Scenario.production);
    reflexivity.
Defined.

(** X11.  A stored document with another [_id], or with none, is left exactly
    as it was, whatever the command carries. *)
Theorem other_documents_are_untouched (command : UpdateEnvironmentCommand.t)
    (c : Collection) (log : list UpdateCall) (i : nat) (doc : Js.Object) :
  c !! i = Some doc →
  doc !! "_id" ≠ Some (Js.Str (_id command)) →
  store (world (execute repository command {| store := c; calls := log |})) !! i
    = Some doc.
Proof.
  intros Hi Hid. rewrite run_store.
  apply MergeFacts.update_documents_no_match; [done|].
  apply not_true_is_false. by rewrite matches_updateFilter.
Qed.

Lemma other_documents_are_untouched_witness :
  store (world (execute repository Scenario.rename Scenario.initial)) !! 1
    = Some Scenario.development.
Proof.
  apply (other_documents_are_untouched Scenario.rename
           [Scenario.production; Scenario.development] [] 1 Scenario.development).
  - reflexivity.
  - vm_compute. discriminate.
Defined.

(** X12.  Running the same command a second time changes nothing more in
    the store: the documents after two runs are the documents after one.
    The payload never writes [_id], so the first run moves no document in or
    out of the filter. *)
Theorem second_run_changes_nothing (command : UpdateEnvironmentCommand.t)
    (w : World Collection) :
  store (world (execute repository command (world (execute repository command w))))
  = store (world (execute repository command w)).
Proof.
  destruct w as [c log].
  rewrite execute_store, run_store.
  change ((update repository (updateFilter command) (updateDocument command)
             (update_documents (updateFilter command) (updateDocument command) c)).2)
    with (update_documents (updateFilter command) (updateDocument command)
            (update_documents (updateFilter command) (updateDocument command) c)).
  apply update_documents_twice.
Qed.

(** X13.  No existence check: a command whose [_id] no stored document has
    does not throw; it acknowledges zero documents and leaves the store as it
    was, after its one call. *)
Theorem unknown_id_is_a_silent_no_op (command : UpdateEnvironmentCommand.t)
    (c : Collection) (log : list UpdateCall) :
  (∀ doc, doc ∈ c → doc !! "_id" ≠ Some (Js.Str (_id command))) →
  execute repository command {| store := c; calls := log |}
  = (Returned 0,
     {| store := c;
        calls := log ++ [ {| query := updateFilter command;
                             updateBody := updateDocument command |} ] |}).
Proof.
  intros Hnone. rewrite execute_unfold. unfold call_update. simpl.
  assert (∀ doc, doc ∈ c → matches (updateFilter command) doc = false) as Hm.
  { intros doc Hdoc. apply not_true_is_false. rewrite matches_updateFilter.
    by apply Hnone. }
  clear Hnone. f_equal; [f_equal|f_equal].
  - induction c as [|doc c IH]; [done|].
    rewrite filter_cons, decide_False.
    + apply IH. intros d Hd. apply Hm. by right.
    + rewrite Hm; [done|by left].
  - unfold update_documents.
    induction c as [|doc c IH]; [done|]. simpl.
    rewrite Hm by (by left). f_equal.
    apply IH. intros d Hd. apply Hm. by right.
Qed.

Lemma unknown_id_is_a_silent_no_op_witness :
  outcome (execute repository Requests.rename_unknown Scenario.initial) = Returned 0
  ∧ store (world (execute repository Requests.rename_unknown Scenario.initial))
    = [Scenario.production; Scenario.development].
Proof.
  assert (∀ doc, doc ∈ [Scenario.production; Scenario.development] →
                 doc !! "_id" ≠ Some (Js.Str (_id Requests.rename_unknown))) as Hnone.
  { intros doc Hdoc.
    apply elem_of_cons in Hdoc as [-> | Hdoc]; [vm_compute; discriminate|].
    apply list_elem_of_singleton in Hdoc as ->. vm_compute. discriminate. }
  pose proof (unknown_id_is_a_silent_no_op Requests.rename_unknown
                [Scenario.production; Scenario.development] [] Hnone) as Hrun.
  change {| store := [Scenario.production; Scenario.development]; calls := [] |}
    with Scenario.initial in Hrun.
  rewrite Hrun. split; reflexivity.
Defined.

(** X14.  An update never removes or empties anything: every property a
    stored document had it still has after the run, and one that held a
    non-empty string still holds a non-empty string. *)
Theorem nothing_is_removed_or_emptied (command : UpdateEnvironmentCommand.t)
    (c : Collection) (log : list UpdateCall) :
  Forall2
    (λ doc doc' : Js.Object,
       dom doc ⊆ dom doc'
       ∧ ∀ k s, doc !! k = Some (Js.Str s) → s ≠ EmptyString →
                ∃ s', doc' !! k = Some (Js.Str s') ∧ s' ≠ EmptyString)
    c (store (world (execute repository command {| store := c; calls := log |}))).
Proof.
  rewrite run_store. unfold update_documents.
  apply Forall2_fmap_r, Forall_Forall2_diag, Forall_forall.
  intros doc _. unfold compose. cbv beta.
  destruct (matches (updateFilter command) doc);
    [|split; [set_solver|]; intros k s Hk Hs; by exists s].
  rewrite merge_updateDocument. split.
  - rewrite dom_union. set_solver.
  - intros k s Hk Hs.
    destruct (updatePayload command !! k) as [v|] eqn:Hp.
    + destruct (UpdateEnvironmentMore.payload_lookup_inv _ _ _ Hp)
        as (f & s' & _ & _ & Hs' & ->).
      exists s'. split; [|done]. by apply lookup_union_Some_l.
    + exists s. split; [|done]. by rewrite lookup_union_r.
Qed.

End UpdateOverStore.

(** ** The other handlers: from session and request to command *)

Module EnvironmentsControllerCrudSpec.
Import EnvironmentsControllerCrud.

Section handlers.
Context {W Env Deleted : Type}.
Context {get_validation : Command GetEnvironmentCommand.t}.
Context {create_validation : Command CreateEnvironmentCommand.t}.
Context {list_validation : Command GetMyEnvironmentsCommand.t}.
Context {delete_validation : Command DeleteEnvironmentCommand.t}.
Variable this : EnvironmentsControllerCrud.t W Env Deleted.

(** X4.  The create handler takes the name from the body and the user and
    organization ids from the session; the use-case runs on that command as
    it is, its result or error being the handler's, unless validation throws
    first. *)
Theorem create_handler_builds_the_command (user : IJwtPayload.t)
    (body : CreateEnvironmentRequestDto.t) (w : W) :
  (∃ command : CreateEnvironmentCommand.t,
     CreateEnvironmentCommand.name command = CreateEnvironmentRequestDto.name body
     ∧ CreateEnvironmentCommand.userId command = IJwtPayload._id user
     ∧ CreateEnvironmentCommand.organizationId command = IJwtPayload.organizationId user
     ∧ createEnvironment this user body w =
         match validate command with
         | None => createEnvironmentUsecase this command w
         | Some e => (Thrown e, w)
         end)
  ∧ (∀ env, createEnvironment this (Session.in_environment env user) body w
            = createEnvironment this user body w).
Proof.
  split; [|by intros env].
  exists (createEnvironment_data user body).
  repeat (split; [reflexivity|]).
  apply EnvironmentsControllerSpec.create_then_execute.
Qed.

(** X5.  The delete handler deletes by the [envId] of the path, with the user
    and organization ids of the session: the current environment of the
    session plays no part, so the run is the same from any of them. *)
Theorem delete_handler_targets_the_path_id (user : IJwtPayload.t) (envId : string) (w : W) :
  (∃ command : DeleteEnvironmentCommand.t,
     DeleteEnvironmentCommand._id command = envId
     ∧ DeleteEnvironmentCommand.organizationId command = IJwtPayload.organizationId user
     ∧ DeleteEnvironmentCommand.userId command = IJwtPayload._id user
     ∧ deleteMyEnvironment this user envId w =
         match validate command with
         | None => deleteEnvironmentUsecase this command w
         | Some e => (Thrown e, w)
         end)
  ∧ (∀ env, deleteMyEnvironment this (Session.in_environment env user) envId w
            = deleteMyEnvironment this user envId w).
Proof.
  split; [|by intros env].
  exists (deleteMyEnvironment_data user envId).
  repeat (split; [reflexivity|]).
  apply EnvironmentsControllerSpec.create_then_execute.
Qed.

(** X6.  The current-environment handler asks for the environment of the
    session: the command carries the session's environment, user and
    organization ids, and the use-case's result or error is the handler's. *)
Theorem current_environment_is_the_sessions (user : IJwtPayload.t) (w : W) :
  (∃ command : GetEnvironmentCommand.t,
     GetEnvironmentCommand.environmentId command = IJwtPayload.environmentId user
     ∧ GetEnvironmentCommand.userId command = IJwtPayload._id user
     ∧ GetEnvironmentCommand.organizationId command = IJwtPayload.organizationId user
     ∧ getCurrentEnvironment this user w =
         match validate command with
         | None => getEnvironmentUsecase this command w
         | Some e => (Thrown e, w)
         end)
  ∧ (∀ env, GetEnvironmentCommand.environmentId
              (getCurrentEnvironment_data (Session.in_environment env user)) = env).
Proof.
  split; [|by intros env].
  exists (getCurrentEnvironment_data user).
  repeat (split; [reflexivity|]).
  apply EnvironmentsControllerSpec.create_then_execute.
Qed.

(** X7.  The list handler asks with the user and organization ids of the
    session only: the list does not depend on the current environment of the
    session. *)
Theorem list_handler_ignores_the_environment (user : IJwtPayload.t) (w : W) :
  (∃ command : GetMyEnvironmentsCommand.t,
     GetMyEnvironmentsCommand.userId command = IJwtPayload._id user
     ∧ GetMyEnvironmentsCommand.organizationId command = IJwtPayload.organizationId user
     ∧ getMyEnvironments this user w =
         match validate command with
         | None => getMyEnvironmentsUsecase this command w
         | Some e => (Thrown e, w)
         end)
  ∧ (∀ env, getMyEnvironments this (Session.in_environment env user) w
            = getMyEnvironments this user w).
Proof.
  split; [|by intros env].
  exists (getMyEnvironments_data user).
  repeat (split; [reflexivity|]).
  apply EnvironmentsControllerSpec.create_then_execute.
Qed.

End handlers.

End EnvironmentsControllerCrudSpec.

(** ** A request through the controller down to the store *)

Module PutEndToEnd.
Import EnvironmentRepository UpdateEnvironment EnvironmentsController.

Section put.
Context {Store Ack ApiKeys Env : Type}.
Context {update_validation : Command UpdateEnvironmentCommand.t}.
Variable environmentRepository : EnvironmentRepository.t Store Ack.
Variables getApiKeys regenerateApiKeys : GetApiKeysCommand.t → M (World Store) ApiKeys.
Variable updateWidgetSettings : UpdateWidgetSettingsCommand.t → M (World Store) Env.

(** A request that validation lets through is one run of the use-case. *)
Lemma put_is_execute (user : IJwtPayload.t) (envId : string)
    (payload : UpdateEnvironmentRequestDto.t) (w : World Store) :
  validate (updateMyEnvironment_data user envId payload) = None →
  updateMyEnvironment
    (Wiring.over_repository environmentRepository getApiKeys regenerateApiKeys
       updateWidgetSettings)
    user envId payload w
  = execute environmentRepository (updateMyEnvironment_data user envId payload) w.
Proof.
  intros Hvalid. unfold updateMyEnvironment.
  rewrite EnvironmentsControllerSpec.create_then_execute. by rewrite Hvalid.
Qed.

(** X8.  [PUT /:envId], once through validation, reaches the store as one
    call filtered by the [envId] of the path alone, and nothing of the
    session reaches the store: the same request from any other session that
    passes validation runs the same and leaves the same store. *)
Theorem put_does_not_depend_on_the_session (user user' : IJwtPayload.t) (envId : string)
    (payload : UpdateEnvironmentRequestDto.t) (w : World Store) :
  validate (updateMyEnvironment_data user envId payload) = None →
  validate (updateMyEnvironment_data user' envId payload) = None →
  query <$> calls_since w
              (world (updateMyEnvironment
                        (Wiring.over_repository environmentRepository getApiKeys
                           regenerateApiKeys updateWidgetSettings)
                        user envId payload w))
    = [ ({[ "_id" := Js.Str envId ]} : Js.Object) ]
  ∧ updateMyEnvironment
      (Wiring.over_repository environmentRepository getApiKeys regenerateApiKeys
         updateWidgetSettings)
      user' envId payload w
    = updateMyEnvironment
        (Wiring.over_repository environmentRepository getApiKeys regenerateApiKeys
           updateWidgetSettings)
        user envId payload w.
Proof.
  intros Hvalid Hvalid'. rewrite !put_is_execute by done. split.
  - by rewrite ExecuteFacts.execute_calls_since.
  - reflexivity.
Qed.

End put.

Lemma put_does_not_depend_on_the_session_witness :
  query <$> calls_since Scenario.initial
              (world (updateMyEnvironment (update_validation := Scenario.accept_all)
                        Requests.controller Scenario.session "env1"
                        Requests.rename_body Scenario.initial))
    = [ ({[ "_id" := Js.Str "env1" ]} : Js.Object) ]
  ∧ updateMyEnvironment (update_validation := Scenario.accept_all)
      Requests.controller Requests.other_session "env1"
      Requests.rename_body Scenario.initial
    = updateMyEnvironment (update_validation := Scenario.accept_all)
        Requests.controller Scenario.session "env1"
        Requests.rename_body Scenario.initial.
Proof.
  exact (put_does_not_depend_on_the_session (update_validation := Scenario.accept_all)
           InMemoryStore.repository
           (λ _, throw Scenario.not_wired) (λ _, throw Scenario.not_wired)
           (λ _, throw Scenario.not_wired)
           Scenario.session Requests.other_session "env1" Requests.rename_body
           Scenario.initial eq_refl eq_refl).
Defined.

Section put_in_memory.
Context {ApiKeys Env : Type}.
Context {update_validation : Command UpdateEnvironmentCommand.t}.
Variables getApiKeys regenerateApiKeys
  : GetApiKeysCommand.t → M (World InMemoryStore.Collection) ApiKeys.
Variable updateWidgetSettings
  : UpdateWidgetSettingsCommand.t → M (World InMemoryStore.Collection) Env.

(** An empty [$set] leaves every document as it is. *)
Lemma update_documents_empty_set (q : Js.Object) (c : InMemoryStore.Collection) :
  InMemoryStore.update_documents q {[ "$set" := ∅ ]} c = c.
Proof.
  unfold InMemoryStore.update_documents.
  rewrite <- (list_fmap_id c) at 2. apply list_fmap_ext. intros i doc _. simpl.
  destruct (InMemoryStore.matches q doc); [|done].
  unfold InMemoryStore.merge. rewrite lookup_singleton_eq. simpl.
  by rewrite (left_id_L ∅ (∪)).
Qed.

(** X9.  [PUT /:envId] with the name [""] changes nothing in the store,
    whatever identifier and parent id the body carries, and is not an error:
    the caller gets the store's acknowledgment of a call whose [$set] is
    empty. *)
Theorem put_with_empty_name_changes_nothing (user : IJwtPayload.t) (envId : string)
    (payload : UpdateEnvironmentRequestDto.t)
    (c : InMemoryStore.Collection) (log : list UpdateCall) :
  UpdateEnvironmentRequestDto.name payload = Some EmptyString →
  validate (updateMyEnvironment_data user envId payload) = None →
  ∃ n : nat,
    updateMyEnvironment
      (Wiring.over_repository InMemoryStore.repository getApiKeys regenerateApiKeys
         updateWidgetSettings)
      user envId payload {| store := c; calls := log |}
    = (Returned n,
       {| store := c;
          calls := log ++ [ {| query := {[ "_id" := Js.Str envId ]};
                               updateBody := {[ "$set" := ∅ ]} |} ] |}).
Proof.
  intros Hname Hvalid. rewrite put_is_execute by done.
  rewrite ExecuteFacts.execute_unfold. unfold call_update.
  unfold updateDocument, updateFilter.
  rewrite (UpdatePayloadFacts.empty_name_empty_payload
             (updateMyEnvironment_data user envId payload) Hname).
  eexists. simpl. by rewrite update_documents_empty_set.
Qed.

End put_in_memory.

Lemma put_with_empty_name_changes_nothing_witness :
  ∃ n : nat,
    updateMyEnvironment (update_validation := Scenario.accept_all)
      Requests.controller Scenario.session "env1" Scenario.put_body Scenario.initial
    = (Returned n,
       {| store := [Scenario.production; Scenario.development];
          calls := [] ++ [ {| query := {[ "_id" := Js.Str "env1" ]};
                              updateBody := {[ "$set" := ∅ ]} |} ] |}).
Proof.
  exact (put_with_empty_name_changes_nothing (update_validation := Scenario.accept_all)
           (λ _, throw Scenario.not_wired) (λ _, throw Scenario.not_wired)
           (λ _, throw Scenario.not_wired)
           Scenario.session "env1" Scenario.put_body
           [Scenario.production; Scenario.development] [] eq_refl eq_refl).
Defined.

End PutEndToEnd.
